(** * kdeps: the test backend of the WebServer proxy example

    A shallow embedding of [examples/webserver-proxy/backend/server.py]
    (the [http.server] variant) and [examples/webserver-proxy/backend/app.py]
    (the Flask variant), and the properties of their routing and of the
    responses they produce.

    Layout:
    - [Py]: the parts of the Python runtime the two files call
      ([str] formatting, [json.dumps], [datetime.isoformat]);
    - [Iso8601]: a reader of the timestamps, as a client has one;
    - [Http]: the parts of [http.server.BaseHTTPRequestHandler] that
      [SimpleHandler] inherits, with the test on the request version that
      guards every line of the response head;
    - [Server]: [server.py];
    - [App]: [app.py], with the routing of Flask on the decoded path;
    - [Process]: handler classes and texts the properties speak of;
    - [PyFacts], [Iso8601Facts], [TextFacts], [ServerFacts], [AppFacts]:
      lemmas;
    - [Runs]: the code run on examples;
    - the properties C1 to C10 of the specification, and further
      properties of the code (X1, X5 to X9, X11). *)

From Stdlib Require Import String Ascii List Arith NArith ZArith Bool Lia.
Import ListNotations.

Local Open Scope string_scope.

(* ===================================================================== *)
(** * The Python runtime *)
(* ===================================================================== *)

Module Py.

(** A Python [str] is modelled as a Rocq [string]: a sequence of code points
    below 256.  Every literal of the two source files is ASCII. *)

(** The double quote, which a string literal of this file cannot hold. *)
Definition dquote : string := String "034"%char "".

(** [s] between double quotes. *)
Definition quoted (s : string) : string := dquote ++ s ++ dquote.

(** ** Decimal output: [str(n)], [%d], [%0wd] *)

Definition digit (n : N) : ascii := ascii_of_N (48 + n mod 10).

(** The decimal digits of [n], most significant first, no leading zero;
    [fuel] bounds the number of digits. *)
Fixpoint dec_fuel (fuel : nat) (n : N) : string :=
  match fuel with
  | 0 => ""
  | S f =>
      if (n <? 10)%N then String (digit n) ""
      else dec_fuel f (n / 10) ++ String (digit n) ""
  end.

(** [str(n)] for a non-negative [int]; a number has no more decimal digits
    than binary ones. *)
Definition dec (n : N) : string := dec_fuel (S (N.size_nat n)) n.

(** [str(z)] for an [int]. *)
Definition str_int (z : Z) : string :=
  match z with
  | Zneg p => "-" ++ dec (Npos p)
  | _ => dec (Z.to_N z)
  end.

Fixpoint zeros (k : nat) : string :=
  match k with
  | 0 => ""
  | S k' => String "0"%char (zeros k')
  end.

(** ["%0wd" % n] for a non-negative [n]: the decimal digits, padded with
    zeros on the left up to width [w] (never truncated). *)
Definition fmt_0d (w : nat) (n : N) : string :=
  let s := dec n in zeros (w - String.length s) ++ s.

(** The [w] low-order decimal digits of [n]; what [fmt_0d w n] is when
    [n < 10 ^ w] (lemma [fmt_0d_digits] below). *)
Fixpoint digits (w : nat) (n : N) : string :=
  match w with
  | 0 => ""
  | S w' => digits w' (n / 10) ++ String (digit n) ""
  end.

(** ** [format % args] *)

(** The values the handlers pass to [%]. *)
Inductive value :=
| VStr (s : string)
| VInt (z : Z).

(** What a call may raise. *)
Inductive exn :=
| TypeError (msg : string)
| ValueError (msg : string).

Inductive result (A : Type) :=
| Ok (a : A)
| Raise (e : exn).
Arguments Ok {A} a.
Arguments Raise {A} e.

(** [format % args] for the conversions [%s], [%d] and [%%]: arguments are
    consumed left to right; too few or too many arguments, or a [str] given
    to [%d], raise [TypeError]; another conversion character is not
    interpreted here and is reported as [ValueError]. *)
Fixpoint percent (format : string) (args : list value) : result string :=
  match format with
  | EmptyString =>
      match args with
      | [] => Ok ""
      | _ :: _ =>
          Raise (TypeError "not all arguments converted during string formatting")
      end
  | String "%"%char (String c rest) =>
      if Ascii.eqb c "%"%char then
        match percent rest args with
        | Ok s => Ok (String "%"%char s)
        | Raise e => Raise e
        end
      else
        match args with
        | [] => Raise (TypeError "not enough arguments for format string")
        | v :: args' =>
            let conv : result string :=
              if Ascii.eqb c "s"%char then
                Ok match v with VStr s => s | VInt z => str_int z end
              else if Ascii.eqb c "d"%char then
                match v with
                | VInt z => Ok (str_int z)
                | VStr _ => Raise (TypeError "%d format: a real number is required, not str")
                end
              else Raise (ValueError "unsupported format character")
            in
            match conv with
            | Raise e => Raise e
            | Ok s1 =>
                match percent rest args' with
                | Ok s => Ok (s1 ++ s)
                | Raise e => Raise e
                end
            end
        end
  | String "%"%char EmptyString => Raise (ValueError "incomplete format")
  | String c rest =>
      match percent rest args with
      | Ok s => Ok (String c s)
      | Raise e => Raise e
      end
  end.

(** ** [json.dumps] *)

(** The JSON-serialisable values the handlers build: [str], [int], [list]
    and [dict] with [str] keys.  A [dict] keeps its keys in insertion
    order, so it is an association list. *)
#[warnings="-register-all"]
Inductive json :=
| JStr (s : string)
| JInt (z : Z)
| JList (items : list json)
| JDict (fields : list (string * json)).

Definition backslash : string := String "092"%char "".

Definition hex_digit (n : N) : ascii :=
  match (n mod 16)%N with
  | 10 => "a" | 11 => "b" | 12 => "c" | 13 => "d" | 14 => "e" | 15 => "f"
  | d => digit d
  end%N%char.

(** The replacement of one character inside a JSON string, as
    [json.encoder.py_encode_basestring_ascii] does it: the quote, the
    backslash and the five short escapes; printable ASCII unchanged; any
    other code point as [\uXXXX]. *)
Definition escape_char (c : ascii) : string :=
  let n := N_of_ascii c in
  match n with
  | 34 => backslash ++ dquote
  | 92 => backslash ++ backslash
  | 8 => backslash ++ "b"
  | 12 => backslash ++ "f"
  | 10 => backslash ++ "n"
  | 13 => backslash ++ "r"
  | 9 => backslash ++ "t"
  | _ =>
      if ((32 <=? n) && (n <=? 126))%N then String c ""
      else backslash ++ "u00" ++ String (hex_digit (n / 16)) (String (hex_digit n) "")
  end%N.

Fixpoint escape (s : string) : string :=
  match s with
  | EmptyString => ""
  | String c s' => escape_char c ++ escape s'
  end.

Definition encode_basestring_ascii (s : string) : string :=
  dquote ++ escape s ++ dquote.

(** [json.dumps(obj)] with its defaults: [ensure_ascii], separators
    [", "] and [": "], keys in insertion order. *)
Fixpoint dumps (obj : json) : string :=
  match obj with
  | JStr s => encode_basestring_ascii s
  | JInt z => str_int z
  | JList items => "[" ++ String.concat ", " (map dumps items) ++ "]"
  | JDict fields =>
      "{" ++ String.concat ", "
               (map (fun kv => encode_basestring_ascii (fst kv) ++ ": " ++ dumps (snd kv))
                    fields) ++ "}"
  end.

(** The value of a key of a [dict]; [None] on another value or a missing key. *)
Definition get (key : string) (obj : json) : option json :=
  match obj with
  | JDict fields =>
      option_map snd (find (fun kv => String.eqb (fst kv) key) fields)
  | _ => None
  end.


(** ** [datetime.datetime] *)

(** A naive [datetime] (no [tzinfo]), as [datetime.datetime.now()] returns. *)
Record datetime := {
  year : N;
  month : N;
  day : N;
  hour : N;
  minute : N;
  second : N;
  microsecond : N
}.

Definition is_leap (y : N) : bool :=
  ((y mod 4 =? 0) && (negb (y mod 100 =? 0) || (y mod 400 =? 0)))%N.

Definition days_in_month (y m : N) : N :=
  match m with
  | 2 => if is_leap y then 29 else 28
  | 4 | 6 | 9 | 11 => 30
  | _ => 31
  end%N.

(** The ranges the [datetime] constructor enforces
    ([_check_date_fields], [_check_time_fields]). *)
Definition valid (t : datetime) : bool :=
  ((1 <=? year t) && (year t <=? 9999) &&
   (1 <=? month t) && (month t <=? 12) &&
   (1 <=? day t) && (day t <=? days_in_month (year t) (month t)) &&
   (hour t <=? 23) && (minute t <=? 59) && (second t <=? 59) &&
   (microsecond t <=? 999999))%N.




(** [t.replace(microsecond=0)]: [t] at the granularity of a second. *)
Definition to_second (t : datetime) : datetime :=
  {| year := year t; month := month t; day := day t; hour := hour t;
     minute := minute t; second := second t; microsecond := 0 |}.

(** [t.isoformat()]: [YYYY-MM-DDTHH:MM:SS], followed by [.ffffff] when the
    microsecond is not zero; a naive datetime has no offset suffix. *)
Definition isoformat (t : datetime) : string :=
  fmt_0d 4 (year t) ++ "-" ++ fmt_0d 2 (month t) ++ "-" ++ fmt_0d 2 (day t)
  ++ "T"
  ++ fmt_0d 2 (hour t) ++ ":" ++ fmt_0d 2 (minute t) ++ ":" ++ fmt_0d 2 (second t)
  ++ (if (microsecond t =? 0)%N then "" else "." ++ fmt_0d 6 (microsecond t)).

(** ** [repr] and [str.lower] *)

Fixpoint contains (c : ascii) (s : string) : bool :=
  match s with
  | EmptyString => false
  | String c' s' => Ascii.eqb c c' || contains c s'
  end.

(** Whether [repr] prints the code point [n] as it is: printable ASCII, and
    the printable part of Latin-1 (not the C1 controls, the no-break space
    or the soft hyphen). *)
Definition isprintable (n : N) : bool :=
  (((32 <=? n) && (n <=? 126)) || ((161 <=? n) && negb (n =? 173)))%N.

Definition repr_char (quote c : ascii) : string :=
  let n := N_of_ascii c in
  if Ascii.eqb c quote || Ascii.eqb c "092"%char then backslash ++ String c ""
  else match n with
       | 9 => backslash ++ "t"
       | 10 => backslash ++ "n"
       | 13 => backslash ++ "r"
       | _ =>
           if isprintable n then String c ""
           else backslash ++ "x" ++ String (hex_digit (n / 16)) (String (hex_digit n) "")
       end%N.

(** [repr(s)] of a [str]: single quotes, unless the string holds a single
    quote and no double quote. *)
Definition repr (s : string) : string :=
  let quote : ascii :=
    if contains "'"%char s && negb (contains "034"%char s) then "034"%char else "'"%char in
  String quote
    ((fix go (s : string) : string :=
        match s with
        | EmptyString => ""
        | String c s' => repr_char quote c ++ go s'
        end) s ++ String quote "").

Definition lower_char (c : ascii) : ascii :=
  let n := N_of_ascii c in
  if ((65 <=? n) && (n <=? 90))%N then ascii_of_N (n + 32) else c.

(** [s.lower()] on ASCII. *)
Fixpoint lower (s : string) : string :=
  match s with
  | EmptyString => ""
  | String c s' => String (lower_char c) (lower s')
  end.

(** [s.encode()]: UTF-8; ASCII is unchanged, a code point from 128 to 255
    takes two bytes. *)
Fixpoint encode (s : string) : string :=
  match s with
  | EmptyString => ""
  | String c s' =>
      let n := N_of_ascii c in
      if (n <? 128)%N then String c (encode s')
      else String (ascii_of_N (192 + n / 64))
             (String (ascii_of_N (128 + n mod 64)) (encode s'))
  end.

End Py.


(* ===================================================================== *)
(** * Reading an ISO-8601 timestamp *)
(* ===================================================================== *)

(** What a client does with the [timestamp] field: it reads the extended
    ISO-8601 form [YYYY-MM-DDThh:mm:ss], with an optional fraction of six
    digits, back into a date and a time of day. *)
Module Iso8601.
Import Py.

Definition is_digit (c : ascii) : bool :=
  ((48 <=? N_of_ascii c) && (N_of_ascii c <=? 57))%N.

(** Reads exactly [w] decimal digits; [acc] is the number read so far. *)
Fixpoint take_num (w : nat) (acc : N) (s : string) : option (N * string) :=
  match w with
  | 0 => Some (acc, s)
  | S w' =>
      match s with
      | String c s' =>
          if is_digit c then take_num w' (10 * acc + (N_of_ascii c - 48)) s' else None
      | EmptyString => None
      end
  end.

Definition expect (c : ascii) (s : string) : option string :=
  match s with
  | String c' s' => if Ascii.eqb c c' then Some s' else None
  | EmptyString => None
  end.

Definition and_then {A B} (o : option A) (k : A -> option B) : option B :=
  match o with
  | Some a => k a
  | None => None
  end.

(** The fraction of a second: nothing, or a dot and six digits, up to the
    end of the text. *)
Definition fraction (s : string) : option N :=
  match s with
  | EmptyString => Some 0%N
  | _ =>
      and_then (expect "."%char s) (fun s =>
      and_then (take_num 6 0 s) (fun '(us, s) =>
      match s with
      | EmptyString => Some us
      | _ => None
      end))
  end.

Definition parse (s : string) : option datetime :=
  and_then (take_num 4 0 s) (fun '(y, s) =>
  and_then (expect "-"%char s) (fun s =>
  and_then (take_num 2 0 s) (fun '(mo, s) =>
  and_then (expect "-"%char s) (fun s =>
  and_then (take_num 2 0 s) (fun '(d, s) =>
  and_then (expect "T"%char s) (fun s =>
  and_then (take_num 2 0 s) (fun '(h, s) =>
  and_then (expect ":"%char s) (fun s =>
  and_then (take_num 2 0 s) (fun '(mi, s) =>
  and_then (expect ":"%char s) (fun s =>
  and_then (take_num 2 0 s) (fun '(sec, s) =>
  and_then (fraction s) (fun us =>
  let t := {| year := y; month := mo; day := d; hour := h; minute := mi;
              second := sec; microsecond := us |} in
  if valid t then Some t else None)))))))))))).

End Iso8601.

(* ===================================================================== *)
(** * [http.server.BaseHTTPRequestHandler] *)
(* ===================================================================== *)

Module Http.
Import Py.

(** The attributes of a handler once [parse_request] has accepted the
    request line, as a [do_*] method finds them.  [parse_request] accepts
    a line of two words, whose method must be GET and whose version stays
    at the default ['HTTP/0.9'], and a line of three words whose last is a
    version [HTTP/x.y] below 2.0; any other line it answers itself (400,
    505), and such a request reaches no [do_*] method and is no value of
    this type. *)
Record request := {
  command : string;                 (** the first word: the method, as sent *)
  path : string;                    (** [self.path]: the second word, a leading run of
                                        slashes reduced to one; the query string is
                                        still in it *)
  request_version : string;         (** the third word, or ['HTTP/0.9'] *)
  requestline : string;             (** the request line, CRLF stripped *)
  client_address : string * N       (** [(host, port)] *)
}.

(** [s.startswith(p)]. *)
Fixpoint startswith (s p : string) {struct p} : bool :=
  match p, s with
  | EmptyString, _ => true
  | String c p', String d s' => Ascii.eqb c d && startswith s' p'
  | String _ _, EmptyString => false
  end.

(** [s.lstrip('/')]. *)
Fixpoint lstrip_slashes (s : string) : string :=
  match s with
  | String c s' => if Ascii.eqb c "/"%char then lstrip_slashes s' else s
  | EmptyString => ""
  end.

(** What [parse_request] stores in [self.path] for the second word
    [target] of the request line:
    [if path.startswith('//'): path = '/' + path.lstrip('/')]. *)
Definition self_path (target : string) : string :=
  if startswith target "//" then "/" ++ lstrip_slashes target else target.

(** A line of the response head.  [StatusLine code] stands for the status
    line of that code, whose reason phrase is not kept. *)
Inductive hline :=
| StatusLine (code : Z)
| Header (keyword value : string).

(** What handling one request reads and writes: the wall clock, the head
    lines buffered by [send_response] and [send_header], the head and the
    body written to [wfile], and the lines printed on standard output. *)
Record state := {
  clock : datetime;
  headers_buffer : list hline;
  wfile_head : list hline;
  wfile_body : string;
  stdout : list string
}.

(** A method of a handler: it updates the state and returns, or raises. *)
Definition M (A : Type) : Type := state -> result A * state.

Definition ret {A} (a : A) : M A := fun s => (Ok a, s).

Definition bind {A B} (m : M A) (k : A -> M B) : M B :=
  fun s =>
    match m s with
    | (Ok a, s') => k a s'
    | (Raise e, s') => (Raise e, s')
    end.

Definition lift {A} (r : result A) : M A := fun s => (r, s).

Declare Scope handler_scope.
Delimit Scope handler_scope with handler.
Notation "x <- m ;; k" := (bind m (fun x => k))
  (at level 61, m at next level, right associativity) : handler_scope.
Notation "m ;; k" := (bind m (fun _ => k))
  (at level 61, right associativity) : handler_scope.
Local Open Scope handler_scope.

(** [datetime.datetime.now()]. *)
Definition datetime_now : M datetime := fun s => (Ok (clock s), s).

(** [time.time()], as the reading of the same clock at that instant. *)
Definition time_time : M datetime := fun s => (Ok (clock s), s).

(** [print(line)]. *)
Definition print (line : string) : M unit :=
  fun s => (Ok tt, {| clock := clock s; headers_buffer := headers_buffer s;
                      wfile_head := wfile_head s; wfile_body := wfile_body s;
                      stdout := stdout s ++ [line] |}).

Definition buffer (l : hline) : M unit :=
  fun s => (Ok tt, {| clock := clock s; headers_buffer := headers_buffer s ++ [l];
                      wfile_head := wfile_head s; wfile_body := wfile_body s;
                      stdout := stdout s |}).

(** [send_response_only(code)]: the status line is buffered, unless the
    request is an HTTP/0.9 one, which gets no head. *)
Definition send_response_only (self : request) (code : Z) : M unit :=
  if negb (String.eqb (request_version self) "HTTP/0.9")
  then buffer (StatusLine code)
  else ret tt.

(** [send_header(keyword, value)], under the same test.  (The note it takes
    of a [Connection] header, for the connection loop, is not kept.) *)
Definition send_header (self : request) (keyword value : string) : M unit :=
  if negb (String.eqb (request_version self) "HTTP/0.9")
  then buffer (Header keyword value)
  else ret tt.

(** [flush_headers()]: the buffered head goes out on [wfile]. *)
Definition flush_headers : M unit :=
  fun s => (Ok tt, {| clock := clock s; headers_buffer := [];
                      wfile_head := wfile_head s ++ headers_buffer s;
                      wfile_body := wfile_body s; stdout := stdout s |}).

(** [end_headers()]: under the same test, the head is closed and flushed;
    for an HTTP/0.9 request nothing is done. *)
Definition end_headers (self : request) : M unit :=
  if negb (String.eqb (request_version self) "HTTP/0.9")
  then flush_headers
  else ret tt.

(** [self.wfile.write(b)]. *)
Definition wfile_write (b : string) : M unit :=
  fun s => (Ok tt, {| clock := clock s; headers_buffer := headers_buffer s;
                      wfile_head := wfile_head s; wfile_body := wfile_body s ++ b;
                      stdout := stdout s |}).

(** [self.address_string()]: the host of the client address. *)
Definition address_string (self : request) : string := fst (client_address self).

(** What the library puts into a response from its own version and
    settings, whose text is not fixed here: the page [send_error] sends
    ([error_message_format] applied to the code, the message and the
    explanation, and encoded), [version_string()], and
    [date_time_string()], which formats [time.time()] and is given as a
    function of the reading of the clock at that instant. *)
Record library := {
  error_page : Z -> string -> string -> string;
  version_string : string;
  date_time_string : datetime -> string
}.

(** The method a subclass may override. *)
Class RequestHandler := {
  log_message : request -> string -> list value -> M unit
}.

Section Base.
Context `{RequestHandler}.
Variable lib : library.

(** [log_request(code)], the size left at its default ['-']. *)
Definition log_request (self : request) (code : Z) : M unit :=
  log_message self (dquote ++ "%s" ++ dquote ++ " %s %s")
    [VStr (requestline self); VStr (str_int code); VStr "-"].

Definition log_error (self : request) (format : string) (args : list value) : M unit :=
  log_message self format args.

(** [send_response(code)]: log the request, buffer the status line, then
    the [Server] and [Date] headers. *)
Definition send_response (self : request) (code : Z) : M unit :=
  log_request self code ;;
  send_response_only self code ;;
  send_header self "Server" (version_string lib) ;;
  timestamp <- time_time ;;
  send_header self "Date" (date_time_string lib timestamp).

(** [send_error(code, message)] for a code that carries a body (at least
    200 and none of 204, 205, 304), [explain] being the long description of
    the code. *)
Definition send_error (self : request) (code : Z) (message explain : string) : M unit :=
  log_error self "code %d, message %s" [VInt code; VStr message] ;;
  send_response self code ;;
  send_header self "Connection" "close" ;;
  let body := error_page lib code message explain in
  send_header self "Content-Type" "text/html;charset=utf-8" ;;
  send_header self "Content-Length" (dec (N.of_nat (String.length body))) ;;
  end_headers self ;;
  if negb (String.eqb (command self) "HEAD") && negb (String.eqb body "")
  then wfile_write body
  else ret tt.

(** The dispatch of [handle_one_request], once [parse_request] has
    accepted the request: [getattr(self, 'do_' + self.command)] runs when
    the class has it, and 501 Not Implemented is sent otherwise. *)
Definition handle_one_request
    (getattr : string -> option (request -> M unit)) (self : request) : M unit :=
  let mname := "do_" ++ command self in
  match getattr mname with
  | None =>
      send_error self 501 ("Unsupported method (" ++ repr (command self) ++ ")")
        "Server does not support this operation"
  | Some method => method self
  end.

End Base.

(** ** What the client receives *)

(** The response, as the specification has it: the status of the status
    line, the content type, and the body; [None] when the head has no such
    line. *)
Record response := {
  status : option Z;
  content_type : option string;
  body : string
}.

Definition status_of (head : list hline) : option Z :=
  match head with
  | StatusLine code :: _ => Some code
  | _ => None
  end.

(** The value of a header; field names compare without case. *)
Fixpoint header_of (keyword : string) (head : list hline) : option string :=
  match head with
  | [] => None
  | Header k v :: rest =>
      if String.eqb (lower k) (lower keyword) then Some v else header_of keyword rest
  | StatusLine _ :: rest => header_of keyword rest
  end.

Definition response_of (s : state) : response :=
  {| status := status_of (wfile_head s);
     content_type := header_of "Content-Type" (wfile_head s);
     body := wfile_body s |}.

(** The state in which a fresh handler starts on a request: nothing
    buffered or sent; the clock reads [now]; [out] is what the process has
    printed so far. *)
Definition start (now : datetime) (out : list string) : state :=
  {| clock := now; headers_buffer := []; wfile_head := []; wfile_body := "";
     stdout := out |}.

End Http.

(* ===================================================================== *)
(** * [server.py] *)
(* ===================================================================== *)

Module Server.
Import Py Http.
Local Open Scope handler_scope.

(** The [response] dict of the ['/'] branch; [now] is what
    [datetime.datetime.now()] returned. *)
Definition home_response (now : datetime) : json :=
  JDict [ ("message", JStr "Hello from Python backend!");
          ("timestamp", JStr (isoformat now));
          ("status", JStr "running");
          ("proxied_by", JStr "KDeps WebServer") ].

(** The [response] dict of the ['/api/data'] branch. *)
Definition data_response : json :=
  JDict [ ("items",
           JList [ JDict [("id", JInt 1); ("name", JStr "Item 1")];
                   JDict [("id", JInt 2); ("name", JStr "Item 2")];
                   JDict [("id", JInt 3); ("name", JStr "Item 3")] ]) ].

(** The dict of the ['/health'] branch. *)
Definition health_response : json :=
  JDict [ ("status", JStr "healthy") ].

(** [SimpleHandler.do_GET]; [lib] is what the base class brings. *)
Definition do_GET `{RequestHandler} (lib : library) (self : request) : M unit :=
  if String.eqb (path self) "/" then
    send_response lib self 200 ;;
    send_header self "Content-type" "application/json" ;;
    end_headers self ;;
    now <- datetime_now ;;
    let response := home_response now in
    wfile_write (encode (dumps response))
  else if String.eqb (path self) "/api/data" then
    send_response lib self 200 ;;
    send_header self "Content-type" "application/json" ;;
    end_headers self ;;
    let response := data_response in
    wfile_write (encode (dumps response))
  else if String.eqb (path self) "/health" then
    send_response lib self 200 ;;
    send_header self "Content-type" "application/json" ;;
    end_headers self ;;
    wfile_write (encode (dumps health_response))
  else
    send_response lib self 404 ;;
    end_headers self.

(** The [do_*] attributes of the class: [do_GET] and no other. *)
Definition getattr `{RequestHandler} (lib : library) (name : string)
  : option (request -> M unit) :=
  if String.eqb name "do_GET" then Some (do_GET lib) else None.

(** [SimpleHandler.log_message]:
    [print(f"[Backend] {self.address_string()} - {format % args}")]. *)
Definition log_message (self : request) (format : string) (args : list value) : M unit :=
  message <- lift (percent format args) ;;
  print ("[Backend] " ++ address_string self ++ " - " ++ message).

(** The class itself: [do_GET] above, run with this [log_message]. *)
Definition SimpleHandler : RequestHandler :=
  {| Http.log_message := log_message |}.

(** The same class with a [log_message] that prints nothing: what the
    responses of [SimpleHandler] are compared with to see that logging
    leaves them alone. *)
Definition Quiet : RequestHandler :=
  {| Http.log_message := fun _ _ _ => ret tt |}.

(** One request handled by an instance of the class [cls]. *)
Definition handle_with (cls : RequestHandler) (lib : library) (self : request) : M unit :=
  @handle_one_request cls lib (@getattr cls lib) self.

(** One request handled by a [SimpleHandler]. *)
Definition handle (lib : library) (self : request) : M unit :=
  handle_with SimpleHandler lib self.

(** [server.serve_forever()] over the requests that arrive, each paired with
    the reading of the clock while it is handled: one fresh handler per
    request; only standard output lasts from one request to the next.
    Returns the responses, in order, and what was printed. *)
Fixpoint serve_forever (lib : library)
    (requests : list (request * datetime)) (out : list string)
  : list response * list string :=
  match requests with
  | [] => ([], out)
  | (self, now) :: rest =>
      let s := snd (handle lib self (start now out)) in
      let (responses, out') := serve_forever lib rest (stdout s) in
      (response_of s :: responses, out')
  end.

(** The route table: the three paths [do_GET] compares with. *)
Definition routes : list string := ["/"; "/api/data"; "/health"].

Definition is_route (p : string) : bool :=
  existsb (String.eqb p) routes.

(** A GET request as [do_GET] finds it: [p] is [self.path]. *)
Definition GET (p version line : string) (client : string * N) : request :=
  {| command := "GET"; path := p; request_version := version;
     requestline := line; client_address := client |}.

(** The routes as a table: the document each path answers with, [None] for
    a path that is no route. *)
Definition route (now : datetime) (p : string) : option json :=
  if String.eqb p "/" then Some (home_response now)
  else if String.eqb p "/api/data" then Some data_response
  else if String.eqb p "/health" then Some health_response
  else None.

(** The state a handler started by [start now out] is in once it has printed
    [lines] and sent [head] and [body]. *)
Definition answered (now : datetime) (out lines : list string)
    (head : list hline) (body : string) : state :=
  {| clock := now; headers_buffer := []; wfile_head := head; wfile_body := body;
     stdout := out ++ lines |}.

(** The head lines of a response of status [code] to a request of version
    [version] at the clock reading [now], [more] being the headers sent
    after [send_response]: none at all for HTTP/0.9. *)
Definition head_lines (lib : library) (now : datetime) (version : string)
    (code : Z) (more : list hline) : list hline :=
  if String.eqb version "HTTP/0.9" then []
  else StatusLine code
         :: Header "Server" (version_string lib)
         :: Header "Date" (date_time_string lib now)
         :: more.

(** The code, the headers and the body of the answer to a GET request. *)
Definition answer_code (found : option json) : Z :=
  match found with
  | Some _ => 200
  | None => 404
  end.

Definition answer_headers (found : option json) : list hline :=
  match found with
  | Some _ => [Header "Content-type" "application/json"]
  | None => []
  end.

Definition answer_body (found : option json) : string :=
  match found with
  | Some obj => encode (dumps obj)
  | None => ""
  end.

(** What the client receives, and what the process has printed, once a
    fresh [SimpleHandler] has handled [self]. *)
Definition respond (lib : library)
    (self : request) (now : datetime) (out : list string) : response :=
  response_of (snd (handle lib self (start now out))).

Definition printed (lib : library)
    (self : request) (now : datetime) (out : list string) : list string :=
  stdout (snd (handle lib self (start now out))).

(** The page [send_error] makes for a refused method, the headers it sends
    with it after those of [send_response], and what it writes of it: the
    page, unless the method is HEAD or the page is empty. *)
Definition refusal_page (lib : library) (self : request) : string :=
  error_page lib 501%Z ("Unsupported method (" ++ repr (command self) ++ ")")
    "Server does not support this operation".

Definition refusal_headers (lib : library) (self : request) : list hline :=
  [ Header "Connection" "close";
    Header "Content-Type" "text/html;charset=utf-8";
    Header "Content-Length" (dec (N.of_nat (String.length (refusal_page lib self)))) ].

Definition refusal_body (lib : library) (self : request) : string :=
  if negb (String.eqb (command self) "HEAD")
     && negb (String.eqb (refusal_page lib self) "")
  then refusal_page lib self else "".

(** The line [log_request] makes [SimpleHandler] print for a response of
    status [code]: the tag, the client host, and the message of the base
    class, which is the request line in double quotes, the status and ['-']
    for the size. *)
Definition request_line_logged (self : request) (code : Z) : string :=
  "[Backend] " ++ address_string self ++ " - "
  ++ dquote ++ requestline self ++ dquote ++ " " ++ str_int code ++ " -".

(** The line [log_error] makes [SimpleHandler] print when [send_error]
    refuses a method. *)
Definition error_line_logged (self : request) : string :=
  "[Backend] " ++ address_string self ++ " - "
  ++ "code 501, message Unsupported method (" ++ repr (command self) ++ ")".

(** The line format the specification documents:
    [[Backend] <client-address> - <request-line>], for any rendering
    [address] of the client address. *)
Definition documented_log_line (address : string) (self : request) : string :=
  "[Backend] " ++ address ++ " - " ++ requestline self.

(** An [error_message_format] for the examples: the code, the message and
    the explanation, one after the other. *)
Definition plain_error_page (code : Z) (message explain : string) : string :=
  str_int code ++ " " ++ message ++ " " ++ explain.

(** A library for the examples: that error page, the version string of
    one release, and a date written as [isoformat] writes it. *)
Definition plain_library : library :=
  {| error_page := plain_error_page;
     version_string := "BaseHTTP/0.6 Python/3.11.2";
     date_time_string := isoformat |}.


End Server.

(* ===================================================================== *)
(** * [app.py] *)
(* ===================================================================== *)

Module App.
Import Py.

(** What a view returns, or the framework in its place. *)
Inductive payload :=
| Json (obj : json)          (** the document given to [jsonify] *)
| ErrorPage.                 (** the framework's page for an HTTP error *)

Record response := {
  status_code : Z;
  mimetype : string;
  data : payload
}.

(** [jsonify(obj)]: a 200 response of type [application/json] carrying
    [obj]. *)
Definition jsonify (obj : json) : response :=
  {| status_code := 200; mimetype := "application/json"; data := Json obj |}.

(** The views; [now] is what [datetime.datetime.now()] returns when the
    view runs. *)
Definition home (now : datetime) : response :=
  jsonify (JDict [ ("message", JStr "Hello from Flask backend!");
                   ("timestamp", JStr (isoformat now));
                   ("status", JStr "running") ]).

Definition get_data (_ : datetime) : response :=
  jsonify (JDict [ ("items",
                    JList [ JDict [("id", JInt 1); ("name", JStr "Item 1")];
                            JDict [("id", JInt 2); ("name", JStr "Item 2")];
                            JDict [("id", JInt 3); ("name", JStr "Item 3")] ]) ]).

Definition health (_ : datetime) : response :=
  jsonify (JDict [ ("status", JStr "healthy") ]).

(** The rules registered by [@app.route], in order. *)
Definition url_map : list (string * (datetime -> response)) :=
  [ ("/", home); ("/api/data", get_data); ("/health", health) ].

(** The path of a request target: what comes before the first ['?']. *)
Fixpoint url_path (target : string) : string :=
  match target with
  | EmptyString => ""
  | String c rest => if Ascii.eqb c "?"%char then "" else String c (url_path rest)
  end.

(** The value of a hexadecimal digit, of either case. *)
Definition hex_value (c : ascii) : option N :=
  let n := N_of_ascii c in
  if ((48 <=? n) && (n <=? 57))%N then Some (n - 48)%N
  else if ((65 <=? n) && (n <=? 70))%N then Some (n - 55)%N
  else if ((97 <=? n) && (n <=? 102))%N then Some (n - 87)%N
  else None.

(** Percent-decoding, as [urllib.parse.unquote] does it: each [%] followed
    by two hexadecimal digits becomes the byte they write; another [%]
    stays, and so does every other character. *)
Fixpoint unquote (s : string) : string :=
  match s with
  | EmptyString => ""
  | String c rest =>
      if Ascii.eqb c "%"%char then
        match rest with
        | String a (String b rest') =>
            match hex_value a, hex_value b with
            | Some x, Some y => String (ascii_of_N (16 * x + y)) (unquote rest')
            | _, _ => String c (unquote rest)
            end
        | _ => String c (unquote rest)
        end
      else String c (unquote rest)
  end.

(** The path the application routes on ([PATH_INFO]): the path of the
    target, percent-decoded.  An escaped byte above 127 is left as that
    byte here, where the framework decodes it into a character: no rule
    holds either. *)
Definition path_info (target : string) : string :=
  unquote (url_path target).

Fixpoint repeated_slash (s : string) : bool :=
  match s with
  | EmptyString => false
  | String c rest =>
      match rest with
      | String d _ => (Ascii.eqb c "/"%char && Ascii.eqb d "/"%char) || repeated_slash rest
      | EmptyString => false
      end
  end.

(** The targets this model answers for: an origin-form target (it starts
    with a slash), without fragment, whose decoded path has no empty
    segment.  What the framework does with the others (it merges repeated
    slashes and redirects, in ways that changed between its versions) is
    its own and is not written here. *)
Definition covered (target : string) : bool :=
  Http.startswith target "/"
  && negb (contains "#"%char target)
  && negb (repeated_slash (path_info target)).

Definition not_found : response :=
  {| status_code := 404; mimetype := "text/html"; data := ErrorPage |}.

(** The answer of the application to a GET request with the given target,
    [None] for a target that is not [covered]: the three rules are static
    (no converter), and a static rule matches the decoded path that is
    equal to it; the view of the rule runs, and 404 is answered when no
    rule matches. *)
Definition get (target : string) (now : datetime) : option response :=
  if covered target then
    Some match find (fun rule => String.eqb (fst rule) (path_info target)) url_map with
         | Some (_, view) => view now
         | None => not_found
         end
  else None.

End App.

(* ===================================================================== *)
(** * Handler classes and texts the properties speak of *)
(* ===================================================================== *)

Module Process.
Import Py Http Server.


(** A handler class whose [log_message] raises [e] whenever it is called. *)
Definition Broken (e : exn) : RequestHandler :=
  {| Http.log_message := fun _ _ _ => lift (Raise e) |}.

(** Text that [json.dumps] and [encode] leave as it is: printable ASCII
    without the double quote and the backslash. *)
Definition plain_char (c : ascii) : bool :=
  let n := N_of_ascii c in
  ((32 <=? n) && (n <=? 126) && negb (n =? 34) && negb (n =? 92))%N.

Fixpoint plain (s : string) : bool :=
  match s with
  | EmptyString => true
  | String c s' => plain_char c && plain s'
  end.

(** Text made of code points below 128. *)
Fixpoint is_ascii (s : string) : bool :=
  match s with
  | EmptyString => true
  | String c s' => (N_of_ascii c <? 128)%N && is_ascii s'
  end.

End Process.

(* ===================================================================== *)
(** * Facts about the runtime *)
(* ===================================================================== *)

Module PyFacts.
Import Py.

Lemma length_app (a b : string) :
  String.length (a ++ b) = String.length a + String.length b.
Proof. induction a as [|c a IH]; simpl; [reflexivity | now rewrite IH]. Qed.

Lemma app_assoc (a b c : string) : (a ++ b) ++ c = a ++ (b ++ c).
Proof. induction a as [|x a IH]; simpl; [reflexivity | now rewrite IH]. Qed.

Lemma app_empty_r (a : string) : a ++ "" = a.
Proof. induction a as [|x a IH]; simpl; [reflexivity | now rewrite IH]. Qed.

(** ** Decimal digits *)

Lemma N_of_digit (n : N) : N_of_ascii (digit n) = (48 + n mod 10)%N.
Proof.
  unfold digit. apply N_ascii_embedding.
  pose proof (N.mod_upper_bound n 10). lia.
Qed.

Lemma size_nat_gt (n : N) : (n < 2 ^ N.of_nat (N.size_nat n))%N.
Proof.
  destruct n as [|p]; simpl; [reflexivity|].
  induction p as [p IH|p IH|]; simpl Pos.size_nat;
    rewrite ?Nat2N.inj_succ, ?N.pow_succ_r'; lia.
Qed.

Lemma dec_fuel_S (f : nat) (n : N) :
  dec_fuel (S f) n =
  if (n <? 10)%N then String (digit n) "" else dec_fuel f (n / 10) ++ String (digit n) "".
Proof. reflexivity. Qed.

Lemma div10_lt_pow2 (k : nat) (n : N) :
  (n < 2 ^ N.of_nat (S k))%N -> (n / 10 < 2 ^ N.of_nat k)%N.
Proof.
  rewrite Nat2N.inj_succ, N.pow_succ_r'. intros Hn.
  apply N.Div0.div_lt_upper_bound. lia.
Qed.

(** Any fuel above the number of binary digits gives the same digits. *)
Lemma dec_fuel_enough : forall (f g : nat) (n : N),
  (n < 2 ^ N.of_nat f)%N -> (n < 2 ^ N.of_nat g)%N ->
  dec_fuel (S f) n = dec_fuel (S g) n.
Proof.
  induction f as [|f IH]; intros g n Hf Hg.
  - simpl in Hf. assert (n = 0%N) by lia. subst n. reflexivity.
  - rewrite !dec_fuel_S. destruct (N.ltb_spec n 10) as [Hlt|Hge]; [reflexivity|].
    destruct g as [|g].
    + simpl in Hg. lia.
    + f_equal. apply IH; now apply div10_lt_pow2.
Qed.

Lemma dec_eq (n : N) :
  dec n = if (n <? 10)%N then String (digit n) "" else dec (n / 10) ++ String (digit n) "".
Proof.
  unfold dec at 1. rewrite dec_fuel_S.
  destruct (N.ltb_spec n 10) as [Hlt|Hge]; [reflexivity|].
  f_equal. pose proof (size_nat_gt n) as Hn.
  destruct (N.size_nat n) as [|k].
  - simpl in Hn. lia.
  - unfold dec. apply dec_fuel_enough.
    + now apply div10_lt_pow2.
    + apply size_nat_gt.
Qed.

Lemma zeros_snoc (k : nat) : zeros k ++ "0" = String "0"%char (zeros k).
Proof. induction k as [|k IH]; simpl; [reflexivity | now rewrite IH]. Qed.

Lemma digits_0 (w : nat) : digits w 0 = zeros w.
Proof.
  induction w as [|w IH]; [reflexivity|].
  simpl digits. change (0 / 10)%N with 0%N. rewrite IH.
  change (String (digit 0) "") with "0". apply zeros_snoc.
Qed.

Lemma length_digits (w : nat) : forall n, String.length (digits w n) = w.
Proof.
  induction w as [|w IH]; intros n; [reflexivity|].
  simpl digits. rewrite length_app, IH. simpl. lia.
Qed.

(** Within its width, [%0wd] is the [w] low-order digits. *)
Lemma fmt_0d_digits : forall (w : nat) (n : N),
  (n < 10 ^ N.of_nat (S w))%N -> fmt_0d (S w) n = digits (S w) n.
Proof.
  induction w as [|w IH]; intros n Hn.
  - change (10 ^ N.of_nat 1)%N with 10%N in Hn.
    unfold fmt_0d. rewrite dec_eq.
    destruct (N.ltb_spec n 10); [reflexivity | lia].
  - unfold fmt_0d. rewrite dec_eq.
    destruct (N.ltb_spec n 10) as [Hlt|Hge].
    + simpl String.length. simpl Nat.sub.
      change (digits (S (S w)) n) with (digits (S w) (n / 10) ++ String (digit n) "").
      rewrite N.div_small by assumption. rewrite digits_0.
      reflexivity.
    + change (digits (S (S w)) n) with (digits (S w) (n / 10) ++ String (digit n) "").
      rewrite <- IH.
      * unfold fmt_0d. rewrite length_app. simpl String.length.
        replace (S (S w) - (String.length (dec (n / 10)) + 1))
          with (S w - String.length (dec (n / 10))) by lia.
        now rewrite app_assoc.
      * rewrite Nat2N.inj_succ, N.pow_succ_r' in Hn.
        apply N.Div0.div_lt_upper_bound. lia.
Qed.

(** ** The order of strings *)





(** ** [isoformat] *)

Lemma days_in_month_le (y m : N) : (days_in_month y m <= 31)%N.
Proof.
  unfold days_in_month.
  repeat match goal with
         | |- context [match ?x with _ => _ end] => destruct x
         end; lia.
Qed.

(** What [valid] gives: every field fits the width [isoformat] prints it in. *)
Lemma valid_bounds (t : datetime) :
  valid t = true ->
  (1 <= year t < 10000 /\ 1 <= month t < 100 /\ 1 <= day t < 100 /\ hour t < 100 /\
   minute t < 100 /\ second t < 100 /\ microsecond t < 1000000)%N.
Proof.
  unfold valid. rewrite !andb_true_iff, !N.leb_le.
  pose proof (days_in_month_le (year t) (month t)). lia.
Qed.

(** The text of a valid datetime, field by field at fixed widths. *)
Definition iso_digits (t : datetime) : string :=
  digits 4 (year t) ++ "-" ++ digits 2 (month t) ++ "-" ++ digits 2 (day t)
  ++ "T"
  ++ digits 2 (hour t) ++ ":" ++ digits 2 (minute t) ++ ":" ++ digits 2 (second t)
  ++ (if (microsecond t =? 0)%N then "" else "." ++ digits 6 (microsecond t)).

Lemma isoformat_digits (t : datetime) :
  valid t = true -> isoformat t = iso_digits t.
Proof.
  intros Hv. apply valid_bounds in Hv.
  unfold isoformat, iso_digits.
  rewrite !fmt_0d_digits by (vm_compute N.pow; lia).
  reflexivity.
Qed.


Lemma sep_app (c : ascii) (a : string) : String c "" ++ a = String c a.
Proof. reflexivity. Qed.







End PyFacts.



Module Iso8601Facts.
Import Py PyFacts Iso8601.

Lemma is_digit_digit (n : N) : is_digit (digit n) = true.
Proof.
  unfold is_digit. rewrite N_of_digit.
  pose proof (N.mod_upper_bound n 10 ltac:(discriminate)) as Hr.
  revert Hr. generalize (n mod 10)%N. intros r Hr.
  apply andb_true_iff. split; apply N.leb_le; lia.
Qed.

Lemma take_num_app : forall (w1 w2 : nat) (acc : N) (s : string),
  take_num (w1 + w2) acc s
  = and_then (take_num w1 acc s) (fun '(v, r) => take_num w2 v r).
Proof.
  induction w1 as [|w1 IH]; intros w2 acc s; simpl; [reflexivity|].
  destruct s as [|c s]; [reflexivity|].
  destruct (is_digit c); [apply IH | reflexivity].
Qed.

(** Reading back the digits of a number gives the number. *)
Lemma take_num_digits : forall (w : nat) (n acc : N) (rest : string),
  (n < 10 ^ N.of_nat w)%N ->
  take_num w acc (digits w n ++ rest) = Some (acc * 10 ^ N.of_nat w + n, rest)%N.
Proof.
  induction w as [|w IH]; intros n acc rest Hn.
  - simpl in *. do 2 f_equal. lia.
  - rewrite Nat2N.inj_succ, N.pow_succ_r' in *.
    simpl digits. rewrite app_assoc, sep_app.
    replace (S w) with (w + 1) by lia.
    rewrite take_num_app, IH by (apply N.Div0.div_lt_upper_bound; lia).
    cbn [and_then take_num]. rewrite is_digit_digit, N_of_digit.
    do 2 f_equal.
    pose proof (N.div_mod n 10 ltac:(discriminate)) as E.
    revert E. generalize (n / 10)%N (n mod 10)%N (10 ^ N.of_nat w)%N.
    intros q r p E. nia.
Qed.

Lemma expect_same (c : ascii) (s : string) : expect c (String c s) = Some s.
Proof. simpl. now rewrite Ascii.eqb_refl. Qed.

Lemma fraction_digits (us : N) :
  (us < 1000000)%N ->
  fraction (if (us =? 0)%N then "" else "." ++ digits 6 us) = Some us.
Proof.
  intros Hus. destruct (N.eqb_spec us 0) as [->|Hne]; [reflexivity|].
  rewrite sep_app. unfold fraction. rewrite expect_same. cbn [and_then].
  rewrite <- (app_empty_r (digits 6 us)).
  rewrite take_num_digits by (vm_compute N.pow; lia).
  reflexivity.
Qed.

(** The text of a valid datetime reads back as that datetime. *)
Lemma parse_isoformat (t : datetime) :
  valid t = true -> parse (isoformat t) = Some t.
Proof.
  intros Hv. rewrite isoformat_digits by assumption.
  pose proof (valid_bounds t Hv) as Hb.
  unfold iso_digits, parse. rewrite !sep_app.
  repeat (rewrite take_num_digits by (vm_compute N.pow; lia);
          cbn [and_then]; rewrite ?expect_same; cbn [and_then]).
  rewrite fraction_digits by lia. cbn [and_then].
  rewrite !N.mul_0_l, !N.add_0_l.
  destruct t; simpl in *. now rewrite Hv.
Qed.

Lemma isoformat_inj (a b : datetime) :
  valid a = true -> valid b = true -> isoformat a = isoformat b -> a = b.
Proof.
  intros Ha Hb E. apply parse_isoformat in Ha, Hb.
  rewrite E in Ha. congruence.
Qed.

End Iso8601Facts.

(* ===================================================================== *)
(** * Facts about the text of the bodies *)
(* ===================================================================== *)

Module TextFacts.
Import Py PyFacts Process.

Lemma plain_app (a b : string) : plain (a ++ b) = plain a && plain b.
Proof.
  induction a as [|c a IH]; simpl; [reflexivity|].
  now rewrite IH, andb_assoc.
Qed.

Lemma is_ascii_app (a b : string) : is_ascii (a ++ b) = is_ascii a && is_ascii b.
Proof.
  induction a as [|c a IH]; simpl; [reflexivity|].
  now rewrite IH, andb_assoc.
Qed.

Lemma plain_is_ascii (s : string) : plain s = true -> is_ascii s = true.
Proof.
  induction s as [|c s IH]; simpl; [reflexivity|].
  unfold plain_char. rewrite !andb_true_iff, !N.leb_le, N.ltb_lt.
  intros [[[[H1 H2] _] _] Hs]. split; [lia | auto].
Qed.

(** [encode] changes nothing in ASCII text. *)
Lemma encode_is_ascii (s : string) : is_ascii s = true -> encode s = s.
Proof.
  induction s as [|c s IH]; simpl; [reflexivity|].
  rewrite andb_true_iff. intros [Hc Hs]. now rewrite Hc, IH.
Qed.

Lemma escape_char_plain (c : ascii) :
  plain_char c = true -> escape_char c = String c "".
Proof.
  destruct c as [[] [] [] [] [] [] [] []]; intros H; try reflexivity; discriminate H.
Qed.

(** [json.dumps] escapes nothing in plain text. *)
Lemma escape_plain (s : string) : plain s = true -> escape s = s.
Proof.
  induction s as [|c s IH]; simpl; [reflexivity|].
  rewrite andb_true_iff. intros [Hc Hs]. now rewrite escape_char_plain, IH.
Qed.

Lemma escape_char_is_ascii (c : ascii) : is_ascii (escape_char c) = true.
Proof. destruct c as [[] [] [] [] [] [] [] []]; reflexivity. Qed.

(** Whatever the string, its escaped form is ASCII. *)
Lemma escape_is_ascii (s : string) : is_ascii (escape s) = true.
Proof.
  induction s as [|c s IH]; simpl; [reflexivity|].
  now rewrite is_ascii_app, escape_char_is_ascii.
Qed.

Lemma plain_digit (n : N) : plain_char (digit n) = true.
Proof.
  unfold plain_char. rewrite N_of_digit.
  pose proof (N.mod_upper_bound n 10 ltac:(discriminate)) as Hr.
  revert Hr. generalize (n mod 10)%N. intros r Hr.
  rewrite !andb_true_iff, !negb_true_iff, !N.leb_le, !N.eqb_neq. lia.
Qed.

Lemma plain_dec_fuel : forall (f : nat) (n : N), plain (dec_fuel f n) = true.
Proof.
  induction f as [|f IH]; intros n; [reflexivity|].
  rewrite dec_fuel_S. destruct (n <? 10)%N.
  - simpl. now rewrite plain_digit.
  - rewrite plain_app, IH. simpl. now rewrite plain_digit.
Qed.

Lemma plain_zeros (k : nat) : plain (zeros k) = true.
Proof. induction k as [|k IH]; simpl; [reflexivity | exact IH]. Qed.

Lemma plain_fmt_0d (w : nat) (n : N) : plain (fmt_0d w n) = true.
Proof.
  unfold fmt_0d, dec. now rewrite plain_app, plain_zeros, plain_dec_fuel.
Qed.

(** The text of any datetime holds digits, [-], [:], [T] and [.]: nothing
    that [json.dumps] escapes. *)
Lemma plain_isoformat (t : datetime) : plain (isoformat t) = true.
Proof.
  unfold isoformat. rewrite !plain_app, !plain_fmt_0d.
  destruct (microsecond t =? 0)%N; [reflexivity|].
  now rewrite plain_app, plain_fmt_0d.
Qed.

Lemma is_ascii_str_int (z : Z) : is_ascii (str_int z) = true.
Proof.
  apply plain_is_ascii. destruct z; unfold str_int, dec;
    rewrite ?plain_app, ?plain_dec_fuel; reflexivity.
Qed.

Lemma is_ascii_concat (sep : string) (l : list string) :
  is_ascii sep = true -> Forall (fun s => is_ascii s = true) l ->
  is_ascii (String.concat sep l) = true.
Proof.
  intros Hsep Hl. induction Hl as [|s l Hs Hl IH]; [reflexivity|].
  destruct l as [|s' l]; [exact Hs|].
  change (String.concat sep (s :: s' :: l)) with (s ++ sep ++ String.concat sep (s' :: l)).
  now rewrite !is_ascii_app, Hs, Hsep, IH.
Qed.

(** Induction on documents, through their lists and dicts. *)
Section JsonInduction.
Variable P : json -> Prop.
Hypothesis HStr : forall s, P (JStr s).
Hypothesis HInt : forall z, P (JInt z).
Hypothesis HList : forall items, Forall P items -> P (JList items).
Hypothesis HDict : forall fields, Forall (fun kv => P (snd kv)) fields -> P (JDict fields).

Fixpoint json_induction (obj : json) : P obj :=
  match obj with
  | JStr s => HStr s
  | JInt z => HInt z
  | JList items =>
      HList items
        ((fix go (l : list json) : Forall P l :=
            match l with
            | [] => Forall_nil P
            | x :: r => Forall_cons x (json_induction x) (go r)
            end) items)
  | JDict fields =>
      HDict fields
        ((fix go (l : list (string * json)) : Forall (fun kv => P (snd kv)) l :=
            match l with
            | [] => Forall_nil _
            | kv :: r => Forall_cons kv (json_induction (snd kv)) (go r)
            end) fields)
  end.
End JsonInduction.

(** Whatever the document, [json.dumps] gives ASCII text. *)
Lemma dumps_is_ascii (obj : json) : is_ascii (dumps obj) = true.
Proof.
  induction obj as [s|z|items IH|fields IH] using json_induction.
  - simpl. unfold encode_basestring_ascii.
    now rewrite !is_ascii_app, escape_is_ascii.
  - apply is_ascii_str_int.
  - cbn [dumps]. rewrite !is_ascii_app.
    assert (H : is_ascii (String.concat ", " (map dumps items)) = true).
    { apply is_ascii_concat; [reflexivity|]. apply Forall_map. exact IH. }
    now rewrite H.
  - cbn [dumps]. rewrite !is_ascii_app.
    assert (H : is_ascii
                  (String.concat ", "
                     (map (fun kv => encode_basestring_ascii (fst kv) ++ ": " ++ dumps (snd kv))
                        fields)) = true).
    { apply is_ascii_concat; [reflexivity|].
      apply Forall_map. eapply Forall_impl; [|exact IH].
      intros kv Hkv. cbv beta. unfold encode_basestring_ascii.
      now rewrite !is_ascii_app, escape_is_ascii, Hkv. }
    now rewrite H.
Qed.

Lemma app_inv_head (a x y : string) : a ++ x = a ++ y -> x = y.
Proof.
  induction a as [|c a IH]; simpl; [auto|].
  intros E. injection E as E. auto.
Qed.

Lemma app_inv_tail : forall (x y r : string), x ++ r = y ++ r -> x = y.
Proof.
  induction x as [|c x IH]; intros [|d y] r E.
  - reflexivity.
  - exfalso. apply (f_equal String.length) in E.
    simpl in E. rewrite length_app in E. lia.
  - exfalso. apply (f_equal String.length) in E.
    simpl in E. rewrite length_app in E. lia.
  - simpl in E. injection E as -> E. f_equal. eauto.
Qed.

End TextFacts.

(* ===================================================================== *)
(** * Facts about [server.py] *)
(* ===================================================================== *)

Module ServerFacts.
Import Py Http Server Process TextFacts.

Lemma handle_GET (cls : RequestHandler) (lib : library)
    (p v line : string) (client : string * N) :
  handle_with cls lib (GET p v line client) = @do_GET cls lib (GET p v line client).
Proof. reflexivity. Qed.

(** [send_response] in a class whose logger returns: one reading of the
    clock, and three head lines unless the request is an HTTP/0.9 one. *)
Lemma send_response_run (lib : library) (self : request) (code : Z) (s : state) :
  @send_response SimpleHandler lib self code s
  = (Ok tt,
     {| clock := clock s;
        headers_buffer :=
          (headers_buffer s
           ++ head_lines lib (clock s) (request_version self) code [])%list;
        wfile_head := wfile_head s; wfile_body := wfile_body s;
        stdout := (stdout s ++ [request_line_logged self code])%list |}).
Proof.
  unfold send_response, send_response_only, send_header, head_lines.
  destruct (String.eqb (request_version self) "HTTP/0.9"); cbn [negb].
  - unfold bind, log_request, buffer, ret, time_time.
    cbn. rewrite List.app_nil_r. reflexivity.
  - unfold bind, log_request, buffer, ret, time_time.
    cbn. rewrite <- !List.app_assoc. reflexivity.
Qed.

(** [do_GET] is a lookup in the route table: what it logs, sends and writes
    is decided by [route], and by the version of the request for the
    head. *)
Lemma do_GET_run (lib : library) (self : request) (now : datetime) (out : list string) :
  @do_GET SimpleHandler lib self (start now out)
  = (Ok tt,
     let found := route now (path self) in
     answered now out [request_line_logged self (answer_code found)]
       (head_lines lib now (request_version self) (answer_code found)
          (answer_headers found))
       (answer_body found)).
Proof.
  unfold do_GET, route, answered.
  destruct (String.eqb (path self) "/");
    [|destruct (String.eqb (path self) "/api/data");
      [|destruct (String.eqb (path self) "/health")]];
    cbv zeta; unfold bind at 1; rewrite send_response_run;
    unfold send_header, end_headers, head_lines;
    destruct (String.eqb (request_version self) "HTTP/0.9");
    reflexivity.
Qed.

Lemma do_GET_quiet (lib : library) (self : request) (now : datetime) (out : list string) :
  @do_GET Quiet lib self (start now out)
  = (Ok tt,
     let found := route now (path self) in
     answered now out []
       (head_lines lib now (request_version self) (answer_code found)
          (answer_headers found))
       (answer_body found)).
Proof.
  unfold do_GET, route, answered, head_lines. rewrite app_nil_r.
  unfold send_response, send_response_only, send_header, end_headers.
  destruct (String.eqb (path self) "/");
    [|destruct (String.eqb (path self) "/api/data");
      [|destruct (String.eqb (path self) "/health")]];
    destruct (String.eqb (request_version self) "HTTP/0.9"); reflexivity.
Qed.


Lemma is_route_spec (p : string) :
  is_route p = true <-> p = "/" \/ p = "/api/data" \/ p = "/health".
Proof.
  unfold is_route, routes. simpl. rewrite !orb_true_iff, !String.eqb_eq.
  intuition discriminate.
Qed.

Lemma route_is_route (now : datetime) (p : string) :
  is_route p = match route now p with Some _ => true | None => false end.
Proof.
  unfold is_route, routes, route. simpl.
  destruct (String.eqb p "/"); [reflexivity|].
  destruct (String.eqb p "/api/data"); [reflexivity|].
  destruct (String.eqb p "/health"); reflexivity.
Qed.

(** The response to a GET request: the body is the document of the route;
    the status line and the content type are there unless the request is an
    HTTP/0.9 one. *)
Lemma respond_GET (lib : library)
    (p v line : string) (client : string * N) (now : datetime) (out : list string) :
  respond lib (GET p v line client) now out
  = let found := route now p in
    if String.eqb v "HTTP/0.9"
    then {| status := None; content_type := None; body := answer_body found |}
    else {| status := Some (answer_code found);
            content_type := match found with
                            | Some _ => Some "application/json"
                            | None => None
                            end;
            body := answer_body found |}.
Proof.
  unfold respond, handle. rewrite handle_GET, do_GET_run.
  change (path (GET p v line client)) with p.
  change (request_version (GET p v line client)) with v.
  unfold head_lines. cbv zeta.
  destruct (String.eqb v "HTTP/0.9"); destruct (route now p); reflexivity.
Qed.



Lemma body_GET (lib : library)
    (p v line : string) (client : string * N) (now : datetime) (out : list string) :
  body (respond lib (GET p v line client) now out) = answer_body (route now p).
Proof. rewrite respond_GET. cbv zeta. now destruct (String.eqb v "HTTP/0.9"). Qed.



(** What [log_error] prints for a refused method. *)
Lemma log_message_error (self : request) (message : string) (s : state) :
  log_message self "code %d, message %s" [VInt 501; VStr message] s
  = print ("[Backend] " ++ address_string self ++ " - code 501, message " ++ message) s.
Proof.
  unfold log_message, bind, lift. cbn [percent Ascii.eqb Bool.eqb].
  change (str_int 501) with "501". cbn [append].
  now rewrite PyFacts.app_empty_r.
Qed.

(** A request with another method than GET finds no [do_*] attribute and is
    refused by [send_error]: two lines are printed (the error, then the
    request), and the page of the error is the body, unless the method is
    HEAD or the page is empty; the head, unless the request is an HTTP/0.9
    one, has the status 501. *)
Lemma handle_unsupported (lib : library)
    (self : request) (now : datetime) (out : list string) :
  command self <> "GET" ->
  handle lib self (start now out)
  = (Ok tt,
     answered now out [error_line_logged self; request_line_logged self 501]
       (head_lines lib now (request_version self) 501 (refusal_headers lib self))
       (refusal_body lib self)).
Proof.
  intros Hc. apply String.eqb_neq in Hc.
  unfold handle, handle_with, handle_one_request, getattr.
  change (String.eqb ("do_" ++ command self) "do_GET")
    with (String.eqb (command self) "GET").
  rewrite Hc. unfold answered, refusal_body, refusal_headers, refusal_page.
  replace (out ++ [error_line_logged self; request_line_logged self 501])%list
    with ((out ++ [error_line_logged self]) ++ [request_line_logged self 501])%list
    by (now rewrite <- List.app_assoc).
  unfold send_error, log_error. cbn [Http.log_message SimpleHandler].
  unfold bind at 1. rewrite log_message_error.
  unfold print at 1. cbn [start clock headers_buffer wfile_head wfile_body stdout].
  unfold bind at 1. rewrite send_response_run.
  unfold send_header, end_headers, head_lines.
  destruct (String.eqb (request_version self) "HTTP/0.9"); cbn [negb];
    destruct (negb (String.eqb (command self) "HEAD")
              && negb (String.eqb (error_page lib 501%Z _ _) "")); reflexivity.
Qed.

Lemma handle_unsupported_quiet (lib : library)
    (self : request) (now : datetime) (out : list string) :
  command self <> "GET" ->
  handle_with Quiet lib self (start now out)
  = (Ok tt,
     answered now out []
       (head_lines lib now (request_version self) 501 (refusal_headers lib self))
       (refusal_body lib self)).
Proof.
  intros Hc. apply String.eqb_neq in Hc.
  unfold handle_with, handle_one_request, getattr.
  change (String.eqb ("do_" ++ command self) "do_GET")
    with (String.eqb (command self) "GET").
  rewrite Hc. unfold answered, refusal_body, refusal_headers, refusal_page.
  rewrite List.app_nil_r.
  unfold send_error, send_response, send_response_only, send_header, end_headers,
    head_lines.
  destruct (String.eqb (request_version self) "HTTP/0.9"); cbn [negb];
    destruct (negb (String.eqb (command self) "HEAD")
              && negb (String.eqb (error_page lib 501%Z _ _) "")); reflexivity.
Qed.

(** A request whose method is GET is a [GET] record. *)
Lemma GET_eta (self : request) :
  command self = "GET" ->
  self = GET (path self) (request_version self) (requestline self) (client_address self).
Proof. destruct self; simpl; now intros ->. Qed.

(** The last character of a text. *)
Fixpoint last_char (s : string) : option ascii :=
  match s with
  | EmptyString => None
  | String c EmptyString => Some c
  | String _ s' => last_char s'
  end.

Lemma last_char_app (a b : string) :
  b <> "" -> last_char (a ++ b) = last_char b.
Proof.
  intros Hb. induction a as [|c a IH]; [reflexivity|].
  simpl. rewrite IH. destruct (a ++ b) eqn:E; [|reflexivity].
  destruct a; simpl in E; [contradiction | discriminate].
Qed.

Lemma handle_command_GET (cls : RequestHandler) (lib : library) (self : request) :
  command self = "GET" -> handle_with cls lib self = @do_GET cls lib self.
Proof. intros E. rewrite (GET_eta self E). apply handle_GET. Qed.

Lemma answer_code_is_route (now : datetime) (p : string) :
  answer_code (route now p) = if is_route p then 200%Z else 404%Z.
Proof. rewrite (route_is_route now). now destruct (route now p). Qed.



(** The bytes of the ['/'] document, around the timestamp. *)
Lemma home_text (now : datetime) :
  encode (dumps (home_response now))
  = "{" ++ quoted "message" ++ ": " ++ quoted "Hello from Python backend!" ++ ", "
    ++ quoted "timestamp" ++ ": " ++ quoted (isoformat now) ++ ", "
    ++ quoted "status" ++ ": " ++ quoted "running" ++ ", "
    ++ quoted "proxied_by" ++ ": " ++ quoted "KDeps WebServer" ++ "}".
Proof.
  rewrite encode_is_ascii by apply dumps_is_ascii.
  unfold home_response. cbn [dumps map fst snd String.concat].
  unfold encode_basestring_ascii at 4.
  rewrite (escape_plain (isoformat now)) by apply plain_isoformat.
  unfold quoted. rewrite !PyFacts.app_assoc. reflexivity.
Qed.

(** The body of the response to [GET /], whatever the version. *)
Lemma home_body (lib : library) (v line : string) (client : string * N)
    (now : datetime) (out : list string) :
  body (respond lib (GET "/" v line client) now out)
  = "{" ++ quoted "message" ++ ": " ++ quoted "Hello from Python backend!" ++ ", "
    ++ quoted "timestamp" ++ ": " ++ quoted (isoformat now) ++ ", "
    ++ quoted "status" ++ ": " ++ quoted "running" ++ ", "
    ++ quoted "proxied_by" ++ ": " ++ quoted "KDeps WebServer" ++ "}".
Proof.
  rewrite body_GET. apply home_text.
Qed.



End ServerFacts.

(* ===================================================================== *)
(** * Facts about [app.py] *)
(* ===================================================================== *)

Module AppFacts.
Import Py.







End AppFacts.

(* ===================================================================== *)
(** * Runs *)
(* ===================================================================== *)

Module Runs.
Import Py Http Server.

Definition leap_day : datetime :=
  {| year := 2024; month := 2; day := 29; hour := 23; minute := 59; second := 59;
     microsecond := 250000 |}.

Definition local : string * N := ("127.0.0.1", 40000%N).

Example isoformat_leap_day : isoformat leap_day = "2024-02-29T23:59:59.250000".
Proof. reflexivity. Qed.

Example isoformat_whole_second :
  isoformat (to_second leap_day) = "2024-02-29T23:59:59".
Proof. reflexivity. Qed.

Example dumps_escapes :
  dumps (JList [JInt (-7); JStr ("a" ++ dquote ++ "b" ++ String "010"%char "")])
  = "[-7, " ++ dquote ++ "a" ++ backslash ++ dquote ++ "b" ++ backslash ++ "n" ++ dquote ++ "]".
Proof. reflexivity. Qed.

Example percent_too_few : exists e, percent "%s and %s" [VStr "one"] = Raise e.
Proof. eexists. reflexivity. Qed.

(** A health check, an unknown path and a POST, one after the other. *)
Example three_requests :
  serve_forever plain_library
    [ (GET "/health" "HTTP/1.1" "GET /health HTTP/1.1" local, leap_day);
      (GET "/nonexistent" "HTTP/1.1" "GET /nonexistent HTTP/1.1" local, leap_day);
      ({| command := "POST"; path := "/"; request_version := "HTTP/1.1";
          requestline := "POST / HTTP/1.1"; client_address := local |}, leap_day) ] []
  = ([ {| status := Some 200%Z; content_type := Some "application/json";
          body := "{" ++ quoted "status" ++ ": " ++ quoted "healthy" ++ "}" |};
       {| status := Some 404%Z; content_type := None; body := "" |};
       {| status := Some 501%Z; content_type := Some "text/html;charset=utf-8";
          body := "501 Unsupported method ('POST') Server does not support this operation" |} ],
     [ "[Backend] 127.0.0.1 - " ++ quoted "GET /health HTTP/1.1" ++ " 200 -";
       "[Backend] 127.0.0.1 - " ++ quoted "GET /nonexistent HTTP/1.1" ++ " 404 -";
       "[Backend] 127.0.0.1 - code 501, message Unsupported method ('POST')";
       "[Backend] 127.0.0.1 - " ++ quoted "POST / HTTP/1.1" ++ " 501 -" ]).
Proof. reflexivity. Qed.

(** The head of the answer to a health check: the status line, the two
    headers of [send_response], then the content type. *)
Example health_head :
  wfile_head (snd (handle plain_library
                     (GET "/health" "HTTP/1.1" "GET /health HTTP/1.1" local)
                     (start leap_day [])))
  = [ StatusLine 200;
      Header "Server" "BaseHTTP/0.6 Python/3.11.2";
      Header "Date" "2024-02-29T23:59:59.250000";
      Header "Content-type" "application/json" ].
Proof. reflexivity. Qed.

(** A request line of two words is an HTTP/0.9 request: the body is all
    the client gets. *)
Example health_without_version :
  snd (handle plain_library (GET "/health" "HTTP/0.9" "GET /health" local)
         (start leap_day []))
  = {| clock := leap_day; headers_buffer := []; wfile_head := [];
       wfile_body := "{" ++ quoted "status" ++ ": " ++ quoted "healthy" ++ "}";
       stdout := ["[Backend] 127.0.0.1 - " ++ quoted "GET /health" ++ " 200 -"] |}.
Proof. reflexivity. Qed.

(** What the parser makes of the second word of the request line. *)
Example self_path_examples :
  self_path "/health" = "/health"
  /\ self_path "//health" = "/health"
  /\ self_path "///" = "/"
  /\ self_path "/api//data" = "/api//data"
  /\ self_path "/health?x=//" = "/health?x=//".
Proof. repeat split. Qed.

(** Flask routes on the decoded path without the query string. *)
Example flask_paths :
  App.path_info "/health?verbose=1" = "/health"
  /\ App.path_info "/%68ealth" = "/health"
  /\ App.path_info "/api%2Fdata" = "/api/data"
  /\ App.path_info "/100%" = "/100%"
  /\ App.path_info "/%zz" = "/%zz"
  /\ App.get "//health" leap_day = None
  /\ App.get "/nonexistent" leap_day = Some App.not_found.
Proof. repeat split. Qed.

End Runs.

(* ===================================================================== *)
(** * The properties *)
(* ===================================================================== *)

Import Py Http Server Process ServerFacts TextFacts.


















(** C6, as the code has it.  For every GET request, routed or not, the
    server prints exactly one line,
    [[Backend] <client host> - "<request line>" <status> -]: the tag, the
    host of the client address, and the message the base class logs for a
    request, which is the request line in double quotes, the status of the
    response and ['-'] for its size.  A request with another method is
    refused by the base class, which prints two lines through the same
    hook: the error, then the request.  Printing changes nothing in the
    response: it is the response of the same class with a silent
    [log_message], and it does not depend on what was printed before. *)
Theorem log_lines_of_a_request :
  forall (lib : library) (self : request)
         (now : datetime) (out : list string),
    printed lib self now out
    = (out ++ if String.eqb (command self) "GET"
              then [request_line_logged self (if is_route (path self) then 200 else 404)]
              else [error_line_logged self; request_line_logged self 501])%list
    /\ respond lib self now out
       = response_of (snd (handle_with Quiet lib self (start now out)))
    /\ respond lib self now out = respond lib self now [].
Proof.
  intros lib self now out. unfold printed, respond, handle.
  destruct (String.eqb_spec (command self) "GET") as [Hc|Hc].
  - rewrite !(handle_command_GET _ _ _ Hc), !do_GET_run, do_GET_quiet.
    rewrite <- answer_code_is_route with (now := now).
    repeat split.
  - rewrite !handle_unsupported, handle_unsupported_quiet by assumption.
    repeat split.
Qed.

(** C6, as the specification states it, fails on [GET /]: the one line
    printed holds the request line in quotes, followed by the status and
    the size; it is not the tag, a client address and the request line
    alone, however the client address is written. *)
Lemma log_line_is_not_the_documented_one :
  printed plain_library (GET "/" "HTTP/1.1" "GET / HTTP/1.1" ("127.0.0.1", 40000%N))
    {| year := 2024; month := 2; day := 29; hour := 23; minute := 59; second := 59;
       microsecond := 0 |} []
  = ["[Backend] 127.0.0.1 - " ++ quoted "GET / HTTP/1.1" ++ " 200 -"]
  /\ (forall address : string,
        "[Backend] 127.0.0.1 - " ++ quoted "GET / HTTP/1.1" ++ " 200 -"
        <> documented_log_line address
             (GET "/" "HTTP/1.1" "GET / HTTP/1.1" ("127.0.0.1", 40000%N))).
Proof.
  split; [reflexivity|].
  intros address E. apply (f_equal last_char) in E.
  unfold documented_log_line in E. cbn [requestline GET] in E.
  rewrite <- (PyFacts.app_assoc "[Backend] " address) in E.
  rewrite (last_char_app ("[Backend] " ++ address)) in E by discriminate.
  vm_compute in E. discriminate E.
Qed.






(* ===================================================================== *)
(** * More properties of the code *)
(* ===================================================================== *)


(** X5. The bytes of the ['/'] body, for any clock reading: the four
    fields in the order of the source, the timestamp standing in them
    exactly as [isoformat] gives it (nothing in it is escaped). *)
Theorem home_body_text :
  forall (lib : library) (v line : string)
         (client : string * N) (now : datetime) (out : list string),
    body (respond lib (GET "/" v line client) now out)
    = "{" ++ quoted "message" ++ ": " ++ quoted "Hello from Python backend!" ++ ", "
      ++ quoted "timestamp" ++ ": " ++ quoted (isoformat now) ++ ", "
      ++ quoted "status" ++ ": " ++ quoted "running" ++ ", "
      ++ quoted "proxied_by" ++ ": " ++ quoted "KDeps WebServer" ++ "}".
Proof.
  intros lib v line client now out. rewrite body_GET.
  change (route now "/") with (Some (home_response now)).
  cbn [answer_body]. apply home_text.
Qed.

(** X6. [json.dumps(...).encode()] sends ASCII only: for any document
    [json.dumps] gives ASCII text, which [encode] leaves unchanged; so the
    body of the response to any GET request is ASCII. *)
Theorem body_is_ascii :
  (forall obj : json, is_ascii (dumps obj) = true /\ encode (dumps obj) = dumps obj)
  /\ (forall (lib : library) (p v line : string)
             (client : string * N) (now : datetime) (out : list string),
        is_ascii (body (respond lib (GET p v line client) now out)) = true).
Proof.
  split.
  - intros obj. split; [apply dumps_is_ascii|].
    apply encode_is_ascii, dumps_is_ascii.
  - intros lib p v line client now out. rewrite body_GET.
    destruct (route now p) as [obj|]; cbn [answer_body]; [|reflexivity].
    rewrite encode_is_ascii; apply dumps_is_ascii.
Qed.

(** X7. The ['/'] body tells the time: for valid clock readings, two
    responses to ['/'] have the same body exactly when they were made at
    the same reading, to the microsecond. *)
Theorem home_body_tells_the_time :
  forall (lib : library) (v1 l1 v2 l2 : string)
         (c1 c2 : string * N) (t1 t2 : datetime) (out1 out2 : list string),
    valid t1 = true -> valid t2 = true ->
    (body (respond lib (GET "/" v1 l1 c1) t1 out1)
     = body (respond lib (GET "/" v2 l2 c2) t2 out2)
     <-> t1 = t2).
Proof.
  intros lib v1 l1 v2 l2 c1 c2 t1 t2 out1 out2 V1 V2.
  rewrite !home_body. split.
  - intros E. repeat (apply app_inv_head in E).
    apply app_inv_tail in E. unfold quoted in E.
    apply app_inv_head, app_inv_tail in E.
    now apply Iso8601Facts.isoformat_inj.
  - now intros ->.
Qed.

(** One reading, for X7. *)
Lemma home_body_tells_the_time_witness :
  body (respond plain_library (GET "/" "HTTP/1.1" "GET / HTTP/1.1" Runs.local)
          Runs.leap_day [])
  = body (respond plain_library (GET "/" "HTTP/1.0" "GET / HTTP/1.0" Runs.local)
            Runs.leap_day ["earlier output"])
  <-> Runs.leap_day = Runs.leap_day.
Proof.
  apply (home_body_tells_the_time plain_library); reflexivity.
Defined.



(** X9. Logging comes first: in every branch [do_GET] starts with
    [send_response], which logs the request before it buffers the status
    line.  So in a handler class whose [log_message] raises on the request
    line, [do_GET] raises the same exception from the state the logger
    left, and sends nothing: no status line, no header, no body. *)
Theorem broken_logger_sends_nothing :
  forall (cls : RequestHandler) (lib : library) (self : request)
         (s s' : state) (e : exn),
    (forall code : Z,
        @Http.log_message cls self (dquote ++ "%s" ++ dquote ++ " %s %s")
          [VStr (requestline self); VStr (str_int code); VStr "-"] s
        = (Raise e, s')) ->
    @do_GET cls lib self s = (Raise e, s').
Proof.
  intros cls lib self s s' e H. unfold do_GET.
  destruct (String.eqb (path self) "/");
    [|destruct (String.eqb (path self) "/api/data");
      [|destruct (String.eqb (path self) "/health")]];
    unfold send_response, log_request, bind; now rewrite H.
Qed.

(** A class whose logger always raises, for X9: nothing reaches the
    client. *)
Lemma broken_logger_sends_nothing_witness :
  response_of
    (snd (@do_GET (Broken (TypeError "not all arguments converted during string formatting"))
            plain_library
            (GET "/health" "HTTP/1.1" "GET /health HTTP/1.1" Runs.local)
            (start Runs.leap_day [])))
  = {| status := None; content_type := None; body := "" |}.
Proof.
  rewrite (broken_logger_sends_nothing
             (Broken (TypeError "not all arguments converted during string formatting"))
             plain_library
             (GET "/health" "HTTP/1.1" "GET /health HTTP/1.1" Runs.local)
             (start Runs.leap_day []) (start Runs.leap_day [])
             (TypeError "not all arguments converted during string formatting")).
  - reflexivity.
  - intros code. reflexivity.
Defined.

(** X11. The timestamp of a valid clock reading has 19 characters when the
    microsecond is zero and 26 otherwise. *)
Theorem timestamp_length :
  forall t : datetime,
    valid t = true ->
    String.length (isoformat t) = if (microsecond t =? 0)%N then 19 else 26.
Proof.
  intros t Hv. rewrite PyFacts.isoformat_digits by assumption.
  unfold PyFacts.iso_digits. rewrite !PyFacts.length_app, !PyFacts.length_digits.
  destruct (microsecond t =? 0)%N; [reflexivity|].
  now rewrite PyFacts.length_app, PyFacts.length_digits.
Qed.

(** A reading with microseconds, for X11. *)
Lemma timestamp_length_witness :
  String.length (isoformat Runs.leap_day) = 26.
Proof.
  apply (timestamp_length Runs.leap_day). reflexivity.
Defined.
